(** * mleku/log: the leveled logger of [log.go], embedded in Rocq

    The development follows [log.go] top to bottom: the [Level] scale and its
    lookup tables, the package state guarded by [writerMx], the gate and
    writer [logPrint], and the five printers that [getOnePrinter] binds to a
    level.  Go maps are [gmap]s, Go strings are byte strings, and code with
    effects is written in a small state monad whose outcomes are a normal
    return, a panic and a goroutine blocked on the mutex. *)

From Stdlib Require Import ZArith Ascii String.
From stdpp Require Import base gmap strings list pretty.

Local Open Scope Z_scope.
#[local] Arguments String.append : simpl nomatch.

(** ** Byte strings and the [strings] helpers the package calls *)

Module GoStrings.

(** The one-byte string "\n". *)
Definition nl : string := String "010"%char EmptyString.

(** [asciiSpace] of Go's [strings] package: tab, line feed, vertical tab,
    form feed, carriage return and space. *)
Definition asciiSpace (c : ascii) : bool :=
  match nat_of_ascii c with
  | 9%nat | 10%nat | 11%nat | 12%nat | 13%nat | 32%nat => true
  | _ => false
  end.

(** The first loop of [strings.TrimSpace]: advance [start] over leading
    space bytes. *)
Fixpoint trimStart (s : string) : string :=
  match s with
  | EmptyString => EmptyString
  | String c r => if asciiSpace c then trimStart r else s
  end.

(** The second loop of [strings.TrimSpace]: move [stop] down over trailing
    space bytes. *)
Fixpoint trimStop (s : string) : string :=
  match s with
  | EmptyString => EmptyString
  | String c r =>
      match trimStop r with
      | EmptyString => if asciiSpace c then EmptyString else String c EmptyString
      | r' => String c r'
      end
  end.

(** [strings.TrimSpace] on byte strings: [s[start:stop]] after both loops.
    Only the six bytes of [asciiSpace] count as white space here.  Go
    switches to [unicode.IsSpace] when a loop meets a byte above 0x7F; the
    multi-byte spaces it then also removes (U+0085, U+00A0, ...) are not part
    of this model, which agrees with Go on every string that has none of
    them at the ends left by the two loops. *)
Definition TrimSpace (s : string) : string := trimStop (trimStart s).

(** [strings.HasSuffix]: [len(s) >= len(suffix) &&
    s[len(s)-len(suffix):] == suffix]. *)
Definition HasSuffix (s suffix : string) : bool :=
  (String.length suffix <=? String.length s)%nat
  && String.eqb
       (String.substring (String.length s - String.length suffix)
                         (String.length suffix) s)
       suffix.

(** [strings.TrimSuffix]: drop [suffix] once when [s] ends with it. *)
Definition TrimSuffix (s suffix : string) : string :=
  if HasSuffix s suffix
  then String.substring 0 (String.length s - String.length suffix) s
  else s.

End GoStrings.
Export GoStrings.

(** ** The Level scale and its tables *)

(** [type Level int32]; the constants are [iota] values.  No arithmetic is
    done on levels, only comparisons, so they are read as integers. *)
Abbreviation Level := Z (only parsing).

Definition Off : Level := 0.
Definition Fatal : Level := 1.
Definition Error : Level := 2.
Definition Check : Level := 3.
Definition Warn : Level := 4.
Definition Info : Level := 5.
Definition Debug : Level := 6.
Definition Trace : Level := 7.

(** The closed enumeration [Off .. Trace]. *)
Definition defined_levels : list Level :=
  [Off; Fatal; Error; Check; Warn; Info; Debug; Trace].

Definition defined (l : Level) : Prop := 0 <= l <= 7.

(** [LvlStr]: the uniform-width names, a [map[Level]string]. *)
Definition LvlStr : gmap Z string :=
  <[Off := "off  "]> (<[Fatal := "fatal"]> (<[Error := "error"]>
  (<[Warn := "warn "]> (<[Info := "info "]> (<[Check := "check"]>
  (<[Debug := "debug"]> (<[Trace := "trace"]> ∅))))))).

(** [lvlStrs]: from name to level, a [map[string]Level]. *)
Definition lvlStrs : gmap string Z :=
  <["off" := Off]> (<["fatal" := Fatal]> (<["error" := Error]>
  (<["check" := Check]> (<["warn" := Warn]> (<["info" := Info]>
  (<["debug" := Debug]> (<["trace" := Trace]> ∅))))))).

(** Indexing a Go map of strings: a missing key reads as the zero value. *)
Definition index_str (m : gmap Z string) (k : Z) : string :=
  default EmptyString (m !! k).

Definition GetLevelByString (lvl : string) (def : Level) : Level :=
  match lvlStrs !! lvl with
  | Some ll => ll
  | None => def
  end.

Definition GetLevelName (ll : Level) : string :=
  TrimSpace (index_str LvlStr ll).

(** ** Dynamic values, package state and the effect monad *)

(** A value passed as [interface{}].  The code only distinguishes strings
    (the type assertion in [_s]) and errors (the argument of [Chk]); every
    other dynamic type is an [Other]. *)
Inductive iface (Other : Type) : Type :=
| IString (s : string)
| IError (description : string)
| IOther (o : Other).
Arguments IString {Other} s.
Arguments IError {Other} description.
Arguments IOther {Other} o.

(** An [error] argument: [None] is [nil], [Some d] an error whose [Error()]
    is [d]. *)
Abbreviation error := (option string) (only parsing).

(** The package variables of [log.go] together with what the caller can
    observe: [writer] holds the writes made to the sink so far, [writerMx]
    tells whether the mutex is held, [now] is what [time.Now()] reads and
    [user] is the caller's own world, which message producers may change. *)
Record State (U : Type) : Type := mkState {
  logLevel : Z;
  timeStampFormat : string;
  App : string;
  writerMx : bool;
  writer : list string;
  now : Z;
  user : U
}.
Arguments mkState {U}.
Arguments logLevel {U}.
Arguments timeStampFormat {U}.
Arguments App {U}.
Arguments writerMx {U}.
Arguments writer {U}.
Arguments now {U}.
Arguments user {U}.

Definition set_logLevel {U} (l : Z) (st : State U) : State U :=
  mkState l (timeStampFormat st) (App st) (writerMx st) (writer st) (now st) (user st).
Definition set_timeStampFormat {U} (f : string) (st : State U) : State U :=
  mkState (logLevel st) f (App st) (writerMx st) (writer st) (now st) (user st).
Definition set_App {U} (a : string) (st : State U) : State U :=
  mkState (logLevel st) (timeStampFormat st) a (writerMx st) (writer st) (now st) (user st).
Definition set_writerMx {U} (b : bool) (st : State U) : State U :=
  mkState (logLevel st) (timeStampFormat st) (App st) b (writer st) (now st) (user st).
Definition set_writer {U} (w : list string) (st : State U) : State U :=
  mkState (logLevel st) (timeStampFormat st) (App st) (writerMx st) w (now st) (user st).
Definition set_user {U} (u : U) (st : State U) : State U :=
  mkState (logLevel st) (timeStampFormat st) (App st) (writerMx st) (writer st) (now st) u.

(** The package state at program start: threshold [Info], the default time
    stamp layout, no application name, nothing written. *)
Definition initial {U} (t : Z) (u : U) : State U :=
  mkState Info "2006-01-02T15:04:05.000000000Z07:00" "" false [] t u.

(** How a call ends: it returns, it panics, or the goroutine waits for
    [writerMx] and never proceeds. *)
Inductive Outcome (U A : Type) : Type :=
| Done (a : A) (st : State U)
| Panic (st : State U)
| Blocked.
Arguments Done {U A} a st.
Arguments Panic {U A} st.
Arguments Blocked {U A}.

Definition M (U A : Type) : Type := State U -> Outcome U A.

Definition ret {U A} (a : A) : M U A := fun st => Done a st.

Definition bind {U A B} (m : M U A) (k : A -> M U B) : M U B :=
  fun st =>
    match m st with
    | Done a st' => k a st'
    | Panic st' => Panic st'
    | Blocked => Blocked
    end.

Notation "x <- m ;; k" := (bind m (fun x => k))
  (at level 100, m at next level, right associativity).
Notation "m ;;; k" := (bind m (fun _ => k))
  (at level 100, right associativity).

Definition panic {U A} : M U A := fun st => Panic st.

Definition gets {U A} (f : State U -> A) : M U A := fun st => Done (f st) st.

Definition modify {U} (f : State U -> State U) : M U unit :=
  fun st => Done tt (f st).

(** [defer d] around [body]: [d] runs when [body] returns and also when it
    panics, and the panic goes on afterwards. *)
Definition defer {U A} (d : M U unit) (body : M U A) : M U A :=
  fun st =>
    match body st with
    | Done a st' =>
        match d st' with
        | Done _ st'' => Done a st''
        | Panic st'' => Panic st''
        | Blocked => Blocked
        end
    | Panic st' =>
        match d st' with
        | Done _ st'' => Panic st''
        | Panic st'' => Panic st''
        | Blocked => Blocked
        end
    | Blocked => Blocked
    end.

(** [writerMx.Lock()]: a goroutine that finds the mutex held waits. *)
Definition Lock {U} : M U unit :=
  fun st => if writerMx st then Blocked else Done tt (set_writerMx true st).

(** [writerMx.Unlock()]: unlocking a free mutex is a fatal error. *)
Definition Unlock {U} : M U unit :=
  fun st => if writerMx st then Done tt (set_writerMx false st) else Panic st.

(** [fmt.Fprintln(writer, s)]: one write of [s] and a newline; its error is
    dropped by the caller. *)
Definition Fprintln {U} (s : string) : M U unit :=
  modify (fun st => set_writer (writer st ++ [s +:+ nl]) st).

(** ** The collaborators outside the package *)

(** What [log.go] imports and does not define.  The formatting functions
    may run caller code ([String], [Error], [Format] methods), so they are
    computations. *)
Class Env : Type := {
  Other : Type;
  U : Type;
  (** [time.Time.Format] of the instant [now] *)
  TimeFormat : Z -> string -> string;
  (** [runtime.Caller(skip)]: file and line of the frame [skip] levels up *)
  Caller : Z -> string * Z;
  (** [strings.ToUpper] *)
  ToUpper : string -> string;
  (** [color.Bit24(r, g, b, false).Sprintf] *)
  Bit24Sprintf : Z -> Z -> Z -> string -> list (iface Other) -> string;
  (** [fmt.Sprintf] *)
  Sprintf : string -> list (iface Other) -> M U string;
  (** [fmt.Sprint] of one value that is neither a string nor an error *)
  SprintOther : Other -> M U string;
  (** [spew.Sdump] *)
  Sdump : list (iface Other) -> M U string
}.

(** [LevelSpec]; a [nil] func value is [None]. *)
Record LevelSpec (Other : Type) : Type := mkLevelSpec {
  Name : string;
  Colorizer : option (string -> list (iface Other) -> string)
}.
Arguments mkLevelSpec {Other}.
Arguments Name {Other}.
Arguments Colorizer {Other}.

Module LevelPrinter.
Record t (Other U : Type) : Type := mk {
  Ln : list (iface Other) -> M U unit;
  F : string -> list (iface Other) -> M U unit;
  S : list (iface Other) -> M U unit;
  C : M U string -> M U unit;
  Chk : error -> M U bool
}.
Arguments mk {Other U}.
Arguments Ln {Other U}.
Arguments F {Other U}.
Arguments S {Other U}.
Arguments C {Other U}.
Arguments Chk {Other U}.
End LevelPrinter.

Module Logger.
Record t (Other U : Type) : Type := mk {
  F : LevelPrinter.t Other U;
  E : LevelPrinter.t Other U;
  W : LevelPrinter.t Other U;
  I : LevelPrinter.t Other U;
  D : LevelPrinter.t Other U;
  T : LevelPrinter.t Other U
}.
Arguments mk {Other U}.
End Logger.

(** ** The package functions *)

Section Package.
Context {E : Env}.

Local Abbreviation value := (iface Other).
Local Abbreviation Mu := (M U).

Definition gLS (lvl : Level) (r g b : Z) : LevelSpec Other :=
  mkLevelSpec (index_str LvlStr lvl) (Some (Bit24Sprintf r g b)).

Definition LevelSpecs : gmap Z (LevelSpec Other) :=
  <[Off := gLS Off 0 0 0]> (<[Fatal := gLS Fatal 255 0 0]>
  (<[Error := gLS Error 255 128 0]> (<[Check := gLS Check 255 255 0]>
  (<[Warn := gLS Warn 128 255 0]> (<[Info := gLS Info 0 255 0]>
  (<[Debug := gLS Debug 0 128 255]> (<[Trace := gLS Trace 128 0 255]> ∅))))))).

(** [LevelSpecs[level]]: a missing key reads as the zero [LevelSpec]. *)
Definition index_spec (k : Level) : LevelSpec Other :=
  default (mkLevelSpec EmptyString None) (LevelSpecs !! k).

(** [GetLoc]: [fmt.Sprint(file, ":", line)] puts no space between
    operands when one of them is a string. *)
Definition GetLoc (skip : Z) : string :=
  let '(file, line) := Caller skip in file +:+ ":" +:+ pretty line.

Definition SetLogLevel (l : Level) : Mu unit :=
  Lock ;;; defer Unlock (modify (set_logLevel l)).

Definition GetLogLevel : Mu Level :=
  Lock ;;; defer Unlock (gets logLevel).

Definition SetTimeStampFormat (format : string) : Mu unit :=
  modify (set_timeStampFormat format).

Definition getTimeText (tsf : string) : Mu string :=
  t <- gets now ;; ret (TimeFormat t tsf).

(** [fmt.Sprint(a[i])] for a single operand. *)
Definition Sprint (v : value) : Mu string :=
  match v with
  | IString s => ret s
  | IError d => ret d
  | IOther o => SprintOther o
  end.

(** The loop of [joinStrings], with [o] the string built so far;
    [i < len(a)-1] holds exactly when elements remain. *)
Fixpoint joinFrom (sep : string) (a : list value) (o : string) : Mu string :=
  match a with
  | [] => ret o
  | x :: rest =>
      s <- Sprint x ;;
      let o := o +:+ s in
      let o := match rest with [] => o | _ => o +:+ sep end in
      joinFrom sep rest o
  end.

Definition joinStrings (sep : string) (a : list value) : Mu string :=
  joinFrom sep a EmptyString.

(** [fmt.Sprintf("%s %s %s %s %s", ...)] on five strings. *)
Definition formatLine (timeText app tag msg loc : string) : string :=
  timeText +:+ " " +:+ app +:+ " " +:+ tag +:+ " " +:+ msg +:+ " " +:+ loc.

(** The closure returned by [logPrint], run at once as every caller does.
    The operands of [Sprintf] are evaluated left to right: the colorizer
    is called before [printFunc]. *)
Definition logPrint (level : Level) (printFunc : Mu string) : Mu unit :=
  Lock ;;;
  defer Unlock (
    threshold <- gets logLevel ;;
    if level >? threshold then ret tt else
    tsf <- gets timeStampFormat ;;
    timeText <- getTimeText tsf ;;
    let loc := GetLoc 3 in
    loaded <- gets App ;;
    app <- (if (0 <? String.length loaded)%nat then gets App else ret EmptyString) ;;
    colorize <- match Colorizer (index_spec level) with
                | Some f => ret f
                | None => panic
                end ;;
    let tag := colorize (index_str LvlStr level) [] in
    msg <- printFunc ;;
    let s := formatLine timeText (ToUpper app) tag msg loc in
    let s := TrimSuffix s nl in
    Fprintln s).

Definition _c (level : Level) (closure : Mu string) : Mu unit :=
  logPrint level closure.

Definition _chk (level : Level) (e : error) : Mu bool :=
  match e with
  | Some d =>
      logPrint level (joinStrings " " [IString "CHECK:"; IError d]) ;;;
      ret true
  | None => ret false
  end.

Definition _f (level : Level) (format : string) (a : list value) : Mu unit :=
  logPrint level (Sprintf format a).

Definition _ln (l : Level) (a : list value) : Mu unit :=
  logPrint l (joinStrings " " a).

(** [a[0]] is read before anything else: an empty [a] panics. *)
Definition _s (level : Level) (a : list value) : Mu unit :=
  match a with
  | [] => panic
  | first :: rest =>
      let '(text, a) :=
        match first with
        | IString s => (TrimSpace s +:+ nl, rest)
        | _ => ("spew:" +:+ nl, a)
        end in
      logPrint level (d <- Sdump a ;; ret (text +:+ d))
  end.

Definition getOnePrinter (level : Level) : LevelPrinter.t Other U :=
  LevelPrinter.mk (_ln level) (_f level) (_s level) (_c level) (_chk level).

Definition GetLogger : Logger.t Other U :=
  Logger.mk (getOnePrinter Fatal) (getOnePrinter Error) (getOnePrinter Warn)
            (getOnePrinter Info) (getOnePrinter Debug) (getOnePrinter Trace).

End Package.

(** ** Observations used to state the properties *)

(** The writes a call added to the sink, given the state it started from. *)
Definition written {U A} (st : State U) (o : Outcome U A) : list string :=
  match o with
  | Done _ st' | Panic st' => drop (length (writer st)) (writer st')
  | Blocked => []
  end.

(** A computation that returns and leaves the package state alone; it may
    change the caller's world. *)
Definition quiet {U A} (p : M U A) : Prop :=
  forall st, exists a u, p st = Done a (set_user u st).

(** The formatting collaborators return and do not write to the sink or
    touch the package variables. *)
Class QuietEnv (E : Env) : Prop := {
  Sprintf_quiet : forall format a, quiet (Sprintf format a);
  SprintOther_quiet : forall o, quiet (SprintOther o);
  Sdump_quiet : forall a, quiet (Sdump a)
}.

(** One invocation of a primitive of a printer bundle, with its arguments. *)
Inductive call (Other U : Type) : Type :=
| CallLn (a : list (iface Other))
| CallF (format : string) (a : list (iface Other))
| CallS (a : list (iface Other))
| CallC (closure : M U string)
| CallChk (e : error).
Arguments CallLn {Other U} a.
Arguments CallF {Other U} format a.
Arguments CallS {Other U} a.
Arguments CallC {Other U} closure.
Arguments CallChk {Other U} e.

Definition invoke {Other U} (p : LevelPrinter.t Other U) (c : call Other U) : M U unit :=
  match c with
  | CallLn a => LevelPrinter.Ln p a
  | CallF format a => LevelPrinter.F p format a
  | CallS a => LevelPrinter.S p a
  | CallC closure => LevelPrinter.C p closure
  | CallChk e => LevelPrinter.Chk p e ;;; ret tt
  end.

(** The invocations that hand an entry to [logPrint]: all but the dump
    printer without arguments and the check printer with a [nil] error. *)
Definition submits {Other U} (c : call Other U) : Prop :=
  match c with
  | CallS [] => False
  | CallChk None => False
  | _ => True
  end.


(** [sub] occurs in [s]. *)
Definition contains (sub s : string) : Prop :=
  exists pre post, s = pre +:+ sub +:+ post.


(** All trailing newlines of a message removed, as the specification
    describes the assembled line. *)
Fixpoint strip_newlines (s : string) : string :=
  match s with
  | EmptyString => EmptyString
  | String c r =>
      match strip_newlines r with
      | EmptyString => if Ascii.eqb c "010" then EmptyString else String c EmptyString
      | r' => String c r'
      end
  end.

(** The write [logPrint] makes for an entry of [level] with message [msg]
    when it starts in [st]: the five fields, [TrimSuffix], and the newline
    of [Fprintln]. *)
Definition line_of {E : Env} (st : State U) (level : Level) (msg : string) : string :=
  let tag :=
    match Colorizer (index_spec level) with
    | Some f => f (index_str LvlStr level) []
    | None => EmptyString
    end in
  TrimSuffix
    (formatLine (TimeFormat (now st) (timeStampFormat st)) (ToUpper (App st))
                tag msg (GetLoc 3))
    nl +:+ nl.

(** What [line_of] puts before the message: time stamp, application name
    and level tag, each followed by a space. *)
Definition line_head {E : Env} (st : State U) (level : Level) : string :=
  let tag :=
    match Colorizer (index_spec level) with
    | Some f => f (index_str LvlStr level) []
    | None => EmptyString
    end in
  TimeFormat (now st) (timeStampFormat st) +:+ " " +:+ ToUpper (App st) +:+ " "
  +:+ tag +:+ " ".

(** What [line_of] puts after the message: a space, the location as
    [TrimSuffix] leaves it, and the newline of [Fprintln]. *)
Definition line_tail {E : Env} : string :=
  TrimSuffix (" " +:+ GetLoc 3) nl +:+ nl.

(** ** A platform to run the model on *)

Module Sample.

Definition upper (c : ascii) : ascii :=
  let n := nat_of_ascii c in
  if ((97 <=? n) && (n <=? 122))%nat then ascii_of_nat (n - 32) else c.

Fixpoint map_bytes (f : ascii -> ascii) (s : string) : string :=
  match s with
  | EmptyString => EmptyString
  | String c r => String (f c) (map_bytes f r)
  end.

(** Counts one more call of a formatting function or closure in the
    caller's world. *)
Definition counted {A} (a : A) : M nat A :=
  fun st => Done a (set_user (Datatypes.S (user st)) st).

(** Values other than strings and errors are integers; every formatting
    collaborator counts its calls. *)
#[export] Instance env : Env := {|
  Other := Z;
  U := nat;
  TimeFormat := fun t _ => "t" +:+ pretty t;
  Caller := fun skip => ("main.go", 40 + skip);
  ToUpper := map_bytes upper;
  Bit24Sprintf := fun _ _ _ format _ => "[" +:+ format +:+ "]";
  Sprintf := fun format _ => counted format;
  SprintOther := fun o => counted (pretty o);
  Sdump := fun a => counted ("(" +:+ pretty (length a) +:+ " values)" +:+ nl)
|}.

(** Program start with the application name set as in the test. *)
Definition start : State nat := set_App "testing" (initial 0 0%nat).

(** The same while another goroutine holds [writerMx]. *)
Definition held : State nat := set_writerMx true start.

(** A closure for the [C] printer whose text ends in a newline. *)
Definition hello : M nat string := counted ("hello" +:+ nl).

End Sample.

(** ** The rest of the package: [LevelMap.String] and the test *)

(** [strings.Join]: nothing for no elements; otherwise the first element,
    then the separator and the next element for each further one. *)
Definition Join (elems : list string) (sep : string) : string :=
  match elems with
  | [] => EmptyString
  | e :: rest => foldl (fun b s => (b +:+ sep) +:+ s) e rest
  end.

(** One round of the loop of [LevelMap.String],
    [ss[i] = strings.TrimSpace(l[i])]: the key itself is the index into
    [ss], and an index outside [ss] panics ([None]). *)
Definition String_store (ss : list string) (kv : Z * string) : option (list string) :=
  if decide (0 <= kv.1 < Z.of_nat (length ss))
  then Some (<[Z.to_nat kv.1 := TrimSpace kv.2]> ss)
  else None.

(** [for i := range l] visiting the entries in [order]. *)
Fixpoint String_range (order : list (Z * string)) (ss : list string)
  : option (list string) :=
  match order with
  | [] => Some ss
  | kv :: rest =>
      match String_store ss kv with
      | Some ss' => String_range rest ss'
      | None => None
      end
  end.

(** [LevelMap.String] when [range] visits the entries in [order]:
    [ss := make([]string, len(l))], the loop, [strings.Join(ss, " ")]. *)
Definition String_in_order (order : list (Z * string)) : option string :=
  match String_range order (replicate (length order) EmptyString) with
  | Some ss => Some (Join ss " ")
  | None => None
  end.

(** Go does not fix the order in which [range] visits a map: any
    enumeration of the entries may occur. *)
Definition range_order (l : gmap Z string) (order : list (Z * string)) : Prop :=
  order ≡ₚ map_to_list l.

(** [LevelMap.String] on one enumeration of [l]. *)
Definition LevelMap_String (l : gmap Z string) : option string :=
  String_in_order (map_to_list l).

Arguments Logger.F {Other U}.
Arguments Logger.E {Other U}.
Arguments Logger.W {Other U}.
Arguments Logger.I {Other U}.
Arguments Logger.D {Other U}.
Arguments Logger.T {Other U}.

(** The six bundles of a [Logger], in the order of its fields. *)
Definition Logger_printers {Other U} (l : Logger.t Other U)
  : list (LevelPrinter.t Other U) :=
  [Logger.F l; Logger.E l; Logger.W l; Logger.I l; Logger.D l; Logger.T l].


(** A computation that starts by waiting for [writerMx]. *)
Definition waits_for_lock {U A} (p : M U A) : Prop :=
  forall st, writerMx st = true -> p st = Blocked.

Section Test.
Context {E : Env}.

(** [fmt.Sprint] of every element in turn, left to right. *)
Fixpoint Sprint_each (a : list (iface Other)) : M U (list string) :=
  match a with
  | [] => ret []
  | x :: rest =>
      s <- Sprint x ;;
      ss <- Sprint_each rest ;;
      ret (s :: ss)
  end.

(** [App.Store]: the atomic string is written without [writerMx]. *)
Definition App_Store (a : string) : M U unit := modify (set_App a).

(** [TestGetLogger] of [log_test.go], with the package variables [log] and
    [fails] of the test. *)
Definition TestGetLogger : M U unit :=
  let log := GetLogger in
  let fails := LevelPrinter.Chk (Logger.E log) in
  SetLogLevel Trace ;;;
  App_Store "testing" ;;;
  LevelPrinter.Ln (Logger.T log)
    [IString "testing log level"; IString (index_str LvlStr Trace)] ;;;
  LevelPrinter.Ln (Logger.D log)
    [IString "testing log level"; IString (index_str LvlStr Debug)] ;;;
  LevelPrinter.Ln (Logger.I log)
    [IString "testing log level"; IString (index_str LvlStr Info)] ;;;
  LevelPrinter.Ln (Logger.W log)
    [IString "testing log level"; IString (index_str LvlStr Warn)] ;;;
  LevelPrinter.Ln (Logger.E log)
    [IString "testing log level"; IString (index_str LvlStr Error)] ;;;
  LevelPrinter.Ln (Logger.F log)
    [IString "testing log level"; IString (index_str LvlStr Fatal)] ;;;
  fails (Some "dummy error as error") ;;;
  LevelPrinter.Chk (Logger.I log) (Some "dummy information check") ;;;
  LevelPrinter.Chk (Logger.I log) None ;;;
  ret tt.


End Test.

(** ** The level registry *)

Lemma defined_cases (l : Level) :
  defined l ->
  l = Off \/ l = Fatal \/ l = Error \/ l = Check \/
  l = Warn \/ l = Info \/ l = Debug \/ l = Trace.
Proof. unfold defined, Off, Fatal, Error, Check, Warn, Info, Debug, Trace. lia. Qed.

Lemma defined_levels_spec (l : Level) : defined l <-> l ∈ defined_levels.
Proof.
  split.
  - intros H. apply defined_cases in H.
    unfold defined_levels.
    repeat (destruct H as [-> | H]; [set_solver |]). subst. set_solver.
  - unfold defined_levels, defined.
    rewrite !elem_of_cons, elem_of_nil.
    unfold Off, Fatal, Error, Check, Warn, Info, Debug, Trace. lia.
Qed.

Lemma LvlStr_undefined (l : Level) : ~ defined l -> LvlStr !! l = None.
Proof.
  unfold defined, LvlStr, Off, Fatal, Error, Check, Warn, Info, Debug, Trace.
  intros H.
  repeat (rewrite lookup_insert_ne by lia).
  apply lookup_empty.
Qed.

(** C4: for every defined level [L] and every default [d], looking the
    trimmed display name of [L] up again gives [L] back. *)
Theorem GetLevelByString_GetLevelName (L d : Level) :
  defined L -> GetLevelByString (GetLevelName L) d = L.
Proof.
  intros H. apply defined_cases in H.
  repeat (destruct H as [-> | H]; [vm_compute; reflexivity |]).
  subst. vm_compute. reflexivity.
Qed.

Lemma GetLevelByString_GetLevelName_witness :
  defined Warn /\ GetLevelByString (GetLevelName Warn) Trace = Warn.
Proof.
  split.
  - unfold defined, Warn. lia.
  - apply (GetLevelByString_GetLevelName Warn Trace). unfold defined, Warn. lia.
Defined.

(** C7: a level outside the enumeration has the empty display name; the
    lookup never fails. *)
Theorem GetLevelName_undefined (ll : Level) :
  ~ defined ll -> GetLevelName ll = EmptyString.
Proof.
  intros H. unfold GetLevelName, index_str.
  rewrite (LvlStr_undefined ll H). reflexivity.
Qed.

Lemma GetLevelName_undefined_witness :
  ~ defined 8 /\ GetLevelName 8 = EmptyString.
Proof.
  split.
  - unfold defined. lia.
  - apply (GetLevelName_undefined 8). unfold defined. lia.
Defined.

(** ** Byte strings *)

Lemma append_assoc (a b c : string) : (a +:+ b) +:+ c = a +:+ (b +:+ c).
Proof. induction a as [| x a IH]; simpl; [reflexivity | by rewrite IH]. Qed.

Lemma TrimSuffix_nl_cons (c : ascii) (s : string) :
  s <> EmptyString -> TrimSuffix (String c s) nl = String c (TrimSuffix s nl).
Proof.
  destruct s as [| c' s']; [congruence | intros _].
  unfold TrimSuffix, HasSuffix, nl.
  cbn [String.length Nat.leb Nat.sub andb String.substring].
  rewrite !Nat.sub_0_r.
  destruct (String.eqb _ _); reflexivity.
Qed.

(** [TrimSuffix] only looks at the end of the line: what stands before a
    non-empty tail is kept byte for byte. *)
Lemma TrimSuffix_nl_app (x y : string) :
  y <> EmptyString -> TrimSuffix (x +:+ y) nl = x +:+ TrimSuffix y nl.
Proof.
  intros Hy. induction x as [| c x IH]; [reflexivity |].
  cbn [String.append]. rewrite TrimSuffix_nl_cons, IH; [reflexivity |].
  destruct x; [exact Hy | discriminate].
Qed.

(** ** The monad and the mutex *)

Section Monad.
Context {U : Type}.
Implicit Types st : State U.

Lemma unlock_lock st :
  writerMx st = false -> set_writerMx false (set_writerMx true st) = st.
Proof. destruct st; simpl; intros ->; reflexivity. Qed.

Lemma set_user_set_user (u u' : U) st :
  set_user u' (set_user u st) = set_user u' st.
Proof. reflexivity. Qed.

Lemma set_user_same st : set_user (user st) st = st.
Proof. destruct st; reflexivity. Qed.





End Monad.

(** ** The gate and writer *)

Section Gate.
Context {E : Env}.
Implicit Types (st : State U) (level : Level) (p : M U string).

Lemma defined_Colorizer level :
  defined level -> exists f, Colorizer (index_spec level) = Some f.
Proof.
  intros H. apply defined_cases in H.
  repeat (destruct H as [-> | H]; [eexists; reflexivity |]).
  subst. eexists; reflexivity.
Qed.

(** The message stands in the written line exactly as the producer
    returned it: [TrimSuffix] can only touch the location after it. *)
Lemma line_of_split st level (m : string) :
  line_of st level m = line_head st level +:+ m +:+ line_tail.
Proof.
  unfold line_of, line_head, line_tail, formatLine.
  set (ts := TimeFormat _ _). set (app := ToUpper _).
  set (tag := match Colorizer _ with Some f => _ | None => _ end).
  set (loc := GetLoc 3).
  transitivity
    (TrimSuffix ((ts +:+ " " +:+ app +:+ " " +:+ tag +:+ " " +:+ m) +:+ " " +:+ loc) nl
     +:+ nl).
  { f_equal. f_equal. rewrite !append_assoc. reflexivity. }
  rewrite TrimSuffix_nl_app by discriminate.
  rewrite !append_assoc. reflexivity.
Qed.

(** A rejected entry: lock, compare, unlock, and nothing else. *)
Lemma logPrint_rejects level p st :
  writerMx st = false -> logLevel st < level -> logPrint level p st = Done tt st.
Proof.
  intros Hmx Hlt.
  unfold logPrint, bind, defer, Lock, Unlock, gets, ret. rewrite Hmx. simpl.
  replace (level >? logLevel st) with true by (symmetry; rewrite Z.gtb_ltb; apply Z.ltb_lt; lia).
  simpl. by rewrite unlock_lock.
Qed.

(** A passing entry of a defined level whose producer returns: one write
    of [line_of], made after the producer ran under the lock. *)
Lemma logPrint_passes level p st m st' :
  defined level -> writerMx st = false -> level <= logLevel st ->
  p (set_writerMx true st) = Done m st' -> writerMx st' = true ->
  logPrint level p st
  = Done tt (set_writerMx false
               (set_writer (writer st' ++ [line_of st level m]) st')).
Proof.
  intros Hdef Hmx Hle Hp Hmx'.
  destruct (defined_Colorizer level Hdef) as [f Hf].
  unfold logPrint, line_of, bind, defer, Lock.
  rewrite Hmx, Hf.
  remember (set_writerMx true st) as st1 eqn:Hst1.
  assert (logLevel st1 = logLevel st /\ timeStampFormat st1 = timeStampFormat st
          /\ App st1 = App st /\ now st1 = now st) as (Hl & Ht & Ha & Hn)
    by (subst st1; auto).
  unfold getTimeText. unfold bind, gets, ret. rewrite Hl.
  replace (level >? logLevel st) with false by (symmetry; rewrite Z.gtb_ltb; apply Z.ltb_ge; lia).
  cbv beta iota. rewrite Hn, Ht, Ha.
  destruct (App st) as [| c a] eqn:HA; cbn [String.length Nat.ltb Nat.leb];
    cbv beta iota; rewrite ?Ha, ?HA, Hp;
    unfold Fprintln, modify, Unlock; cbn [writerMx set_writer];
    rewrite Hmx'; reflexivity.
Qed.

Lemma logPrint_quiet level p st :
  quiet p -> defined level -> writerMx st = false -> level <= logLevel st ->
  exists m u,
    p (set_writerMx true st) = Done m (set_user u (set_writerMx true st)) /\
    logPrint level p st
    = Done tt (set_user u (set_writer (writer st ++ [line_of st level m]) st)).
Proof.
  intros Hq Hdef Hmx Hle.
  destruct (Hq (set_writerMx true st)) as (m & u & Hp).
  exists m, u. split; [exact Hp |].
  rewrite (logPrint_passes level p st m _ Hdef Hmx Hle Hp eq_refl).
  destruct st; simpl in *; subst; reflexivity.
Qed.

(** X8: An undefined level that passes the gate has no colorizer: the call
    panics before the producer runs, and the deferred unlock releases the
    mutex. *)
Lemma logPrint_undefined level p st :
  ~ defined level -> writerMx st = false -> level <= logLevel st ->
  logPrint level p st = Panic st.
Proof.
  intros Hdef Hmx Hle.
  assert (Colorizer (index_spec level) = None) as Hf.
  { unfold index_spec, LevelSpecs, defined,
      Off, Fatal, Error, Check, Warn, Info, Debug, Trace in *.
    repeat (rewrite lookup_insert_ne by lia). by rewrite lookup_empty. }
  unfold logPrint, bind, defer, Lock. rewrite Hmx, Hf.
  remember (set_writerMx true st) as st1 eqn:Hst1.
  assert (logLevel st1 = logLevel st /\ writerMx st1 = true) as (Hl & Hm)
    by (subst st1; auto).
  unfold getTimeText. unfold bind, gets, ret, panic. rewrite Hl.
  replace (level >? logLevel st) with false by (symmetry; rewrite Z.gtb_ltb; apply Z.ltb_ge; lia).
  cbv beta iota.
  destruct (0 <? String.length (App st1))%nat; cbv beta iota;
    unfold Unlock; rewrite Hm; subst st1; by rewrite unlock_lock.
Qed.




(** The message of the check printer. *)
Lemma joinStrings_CHECK (d : string) st :
  joinStrings " " [IString "CHECK:"; IError d] st = Done ("CHECK: " +:+ d) st.
Proof. reflexivity. Qed.

End Gate.

(** ** The printers *)

Section Printers.
Context {E : Env}.
Implicit Types (st : State U) (L : Level) (p : M U string).

(** What a quiet producer makes of [logPrint] on a defined level with the
    mutex free: either the gate rejects and nothing changes, or the gate
    passes and the single line of the producer's message is written. *)
Lemma logPrint_cases L p st :
  quiet p -> defined L -> writerMx st = false ->
  (logLevel st < L /\ logPrint L p st = Done tt st) \/
  (L <= logLevel st /\ exists m u,
      p (set_writerMx true st) = Done m (set_user u (set_writerMx true st)) /\
      logPrint L p st
      = Done tt (set_user u (set_writer (writer st ++ [line_of st L m]) st))).
Proof.
  intros Hq Hdef Hmx. destruct (Z_lt_le_dec (logLevel st) L) as [Hlt | Hle].
  - left. split; [exact Hlt | by apply logPrint_rejects].
  - right. split; [exact Hle |]. by apply logPrint_quiet.
Qed.



(** C2: above the threshold neither the closure given to the C printer nor
    the format substitution of the F printer is run: whatever they would
    do, the call returns with the state, the caller's world included,
    exactly as it was. *)
Theorem rejected_producer_not_run L st (closure : M U string)
    (format : string) (a : list (iface Other)) :
  writerMx st = false -> logLevel st < L ->
  LevelPrinter.C (getOnePrinter L) closure st = Done tt st /\
  LevelPrinter.F (getOnePrinter L) format a st = Done tt st.
Proof.
  intros Hmx Hlt. split; simpl; unfold _c, _f; by apply logPrint_rejects.
Qed.

(** C10: above the threshold the check printer given a present error
    returns [true] and writes nothing. *)
Theorem chk_true_above_threshold L st (d : string) :
  writerMx st = false -> logLevel st < L ->
  LevelPrinter.Chk (getOnePrinter L) (Some d) st = Done true st.
Proof.
  intros Hmx Hlt. simpl. unfold _chk, bind.
  by rewrite logPrint_rejects.
Qed.

(** X15: The boolean of the check printer tells whether the error is present,
    at every threshold. *)
Lemma chk_result L st (e : error) :
  defined L -> writerMx st = false ->
  exists st', _chk L e st = Done (bool_decide (is_Some e)) st'.
Proof.
  intros Hdef Hmx. destruct e as [d |]; [| by eexists].
  assert (quiet (U := U) (joinStrings " " [IString "CHECK:"; IError d])) as Hq.
  { intros st0. exists ("CHECK: " +:+ d), (user st0).
    by rewrite joinStrings_CHECK, set_user_same. }
  unfold _chk, bind.
  destruct (logPrint_cases L _ st Hq Hdef Hmx)
    as [[_ ->] | [_ (m & u & _ & ->)]]; by eexists.
Qed.

(** C3, amended: with [L] at most the threshold, the check printer given a
    present error returns [true] and writes exactly one line, which
    contains "CHECK:" and the error's description; given an absent error
    it returns [false] and writes nothing. *)
Theorem chk_present_absent L st (d : string) :
  defined L -> writerMx st = false -> L <= logLevel st ->
  (exists line,
      LevelPrinter.Chk (getOnePrinter L) (Some d) st
      = Done true (set_writer (writer st ++ [line]) st) /\
      contains "CHECK:" line /\ contains d line) /\
  LevelPrinter.Chk (getOnePrinter L) None st = Done false st.
Proof.
  intros Hdef Hmx Hle. split; [| reflexivity].
  exists (line_of st L ("CHECK: " +:+ d)). split; [| split].
  - simpl. unfold _chk, bind.
    rewrite (logPrint_passes L _ st ("CHECK: " +:+ d) (set_writerMx true st));
      [| done | done | done | apply joinStrings_CHECK | done].
    unfold ret. f_equal. destruct st; simpl in *; subst; reflexivity.
  - rewrite line_of_split.
    exists (line_head st L), (" " +:+ d +:+ line_tail).
    reflexivity.
  - rewrite line_of_split.
    exists (line_head st L +:+ "CHECK: "), line_tail.
    rewrite !append_assoc. reflexivity.
Qed.

End Printers.

(** ** The closure and dump printers, and the configuration setters *)

Section Messages.
Context {E : Env}.
Implicit Types (st : State U) (L : Level).

(** C5 (the code does not strip them): when the C printer of a defined
    level passes the gate, the message [m] its closure returned is written
    byte for byte, newlines at its end included, followed by a space, the
    location and the sink's newline. *)
Theorem message_newlines_kept L st (closure : M U string) (m : string) st' :
  defined L -> writerMx st = false -> L <= logLevel st ->
  closure (set_writerMx true st) = Done m st' -> writerMx st' = true ->
  LevelPrinter.C (getOnePrinter L) closure st
  = Done tt (set_writerMx false
               (set_writer (writer st' ++ [line_head st L +:+ m +:+ line_tail]) st')).
Proof.
  intros Hdef Hmx Hle Hrun Hmx'. simpl. unfold _c.
  rewrite (logPrint_passes L closure st m st') by done.
  by rewrite line_of_split.
Qed.



(** C9: the dump printer called without arguments panics on [a[0]] for
    every level and in every state, before the mutex or the threshold is
    looked at: the state is as it was. *)
Theorem dump_without_arguments_panics L st :
  LevelPrinter.S (getOnePrinter L) [] st = Panic st.
Proof. reflexivity. Qed.

(** C8 (the code does not take the lock): while another goroutine holds
    [writerMx], [SetTimeStampFormat] goes ahead and stores the new format
    without touching the mutex, whereas [SetLogLevel] and [GetLogLevel]
    wait for it. *)
Theorem SetTimeStampFormat_without_lock st (format : string) (l : Level) :
  writerMx st = true ->
  SetTimeStampFormat format st = Done tt (set_timeStampFormat format st) /\
  writerMx (set_timeStampFormat format st) = true /\
  SetLogLevel l st = Blocked /\
  GetLogLevel st = Blocked.
Proof.
  intros Hmx. repeat split.
  - exact Hmx.
  - unfold SetLogLevel, bind, Lock. by rewrite Hmx.
  - unfold GetLogLevel, bind, Lock. by rewrite Hmx.
Qed.

(** With the mutex free the locking setter stores the threshold and gives
    the mutex back. *)
Lemma SetLogLevel_free st (l : Level) :
  writerMx st = false -> SetLogLevel l st = Done tt (set_logLevel l st).
Proof.
  intros Hmx. unfold SetLogLevel, bind, Lock, defer, modify, Unlock.
  rewrite Hmx. simpl. destruct st; simpl in *; subst; reflexivity.
Qed.

End Messages.

(** ** The model run on the sample platform *)

Import Sample.

#[export] Instance sample_quiet : QuietEnv env.
Proof.
  split; intros; intros st; eexists _, _; reflexivity.
Qed.

(** If it is run, the sample closure counts its call. *)
Example hello_counts : hello start = Done ("hello" +:+ nl) (set_user 1%nat start).
Proof. reflexivity. Qed.

(** The test's line at [Info] with the application name set. *)
Example info_line :
  written start
    (LevelPrinter.Ln (getOnePrinter (E := env) Info)
       [IString "testing log level"; IString "info "] start)
  = ["t0 TESTING [info ] testing log level info  main.go:43" +:+ nl].
Proof. reflexivity. Qed.

(** A message that ends in a newline comes out with that newline before the
    location, not as the line the specification describes. *)
Example hello_line :
  written start (LevelPrinter.C (getOnePrinter (E := env) Info) hello start)
  = ["t0 TESTING [info ] hello" +:+ nl +:+ " main.go:43" +:+ nl] /\
  line_head (E := env) start Info +:+ strip_newlines ("hello" +:+ nl) +:+ line_tail
  = "t0 TESTING [info ] hello main.go:43" +:+ nl.
Proof. split; reflexivity. Qed.

(** An undefined level that passes the gate has a [nil] colorizer. *)
Example undefined_level_panics :
  _ln (E := env) 9 [IOther 7] (set_logLevel 10 start) = Panic (set_logLevel 10 start).
Proof. reflexivity. Qed.



Lemma rejected_producer_not_run_witness :
  writerMx start = false /\ logLevel start < Debug /\
  LevelPrinter.C (getOnePrinter (E := env) Debug) hello start = Done tt start /\
  LevelPrinter.F (getOnePrinter (E := env) Debug) "x=%d" [IOther 1] start = Done tt start.
Proof.
  split; [reflexivity |]. split; [reflexivity |].
  apply (rejected_producer_not_run (E := env) Debug start hello "x=%d" [IOther 1]);
    reflexivity.
Defined.

Lemma chk_present_absent_witness :
  defined Info /\ writerMx start = false /\ Info <= logLevel start /\
  (exists line,
      LevelPrinter.Chk (getOnePrinter (E := env) Info) (Some "boom") start
      = Done true (set_writer (writer start ++ [line]) start) /\
      contains "CHECK:" line /\ contains "boom" line) /\
  LevelPrinter.Chk (getOnePrinter (E := env) Info) None start = Done false start.
Proof.
  assert (defined Info) as Hd by (unfold defined, Info; lia).
  assert (Info <= logLevel start) as Hle by (vm_compute; discriminate).
  split; [exact Hd |]. split; [reflexivity |]. split; [exact Hle |].
  exact (chk_present_absent (E := env) Info start "boom" Hd eq_refl Hle).
Defined.

(** C3 as stated fails: with the default threshold [Info], the check printer
    of [Trace] given a present error writes no line. *)
Lemma chk_gated_counterexample :
  ~ exists line,
      written start (LevelPrinter.Chk (getOnePrinter (E := env) Trace) (Some "boom") start)
      = [line].
Proof. intros [line H]. vm_compute in H. discriminate. Qed.

Lemma chk_true_above_threshold_witness :
  writerMx start = false /\ logLevel start < Trace /\
  LevelPrinter.Chk (getOnePrinter (E := env) Trace) (Some "boom") start = Done true start.
Proof.
  split; [reflexivity |]. split; [reflexivity |].
  apply (chk_true_above_threshold (E := env) Trace start "boom"); reflexivity.
Defined.

Lemma message_newlines_kept_witness :
  defined Info /\ writerMx start = false /\ Info <= logLevel start /\
  LevelPrinter.C (getOnePrinter (E := env) Info) hello start
  = Done tt
      (set_writerMx false
         (set_writer
            (writer start
             ++ [line_head (E := env) start Info +:+ ("hello" +:+ nl) +:+ line_tail])
            (set_user 1%nat (set_writerMx true start)))).
Proof.
  assert (defined Info) as Hd by (unfold defined, Info; lia).
  assert (Info <= logLevel start) as Hle by (vm_compute; discriminate).
  split; [exact Hd |]. split; [reflexivity |]. split; [exact Hle |].
  exact (message_newlines_kept (E := env) Info start hello ("hello" +:+ nl)
           (set_user 1%nat (set_writerMx true start))
           Hd eq_refl Hle eq_refl eq_refl).
Defined.



Lemma SetTimeStampFormat_without_lock_witness :
  writerMx held = true /\
  SetTimeStampFormat (E := env) "15:04:05" held = Done tt (set_timeStampFormat "15:04:05" held) /\
  SetLogLevel (E := env) Trace held = Blocked.
Proof.
  split; [reflexivity |].
  destruct (SetTimeStampFormat_without_lock (E := env) held "15:04:05" Trace eq_refl)
    as (H1 & _ & H2 & _).
  split; [exact H1 | exact H2].
Defined.

(** ** More on the level registry *)

(** The two tables are inverse to each other on trimmed names. *)
Lemma lvlStrs_inverse (s : string) (l : Level) :
  lvlStrs !! s = Some l <-> defined l /\ GetLevelName l = s.
Proof.
  split.
  - unfold lvlStrs. rewrite !lookup_insert, lookup_empty.
    repeat case_decide; intros [= <-]; subst; split;
      solve [vm_compute; split; discriminate | vm_compute; reflexivity].
  - intros [H <-]. apply defined_cases in H.
    repeat (destruct H as [-> | H]; [vm_compute; reflexivity |]).
    subst. vm_compute. reflexivity.
Qed.

(** X1: [GetLevelByString] is an exact lookup: a string that is the trimmed name
    of no level gives the default, and a result other than the default is a
    defined level whose trimmed name is the string that was looked up. *)
Theorem GetLevelByString_exact (s : string) (d : Level) :
  ((forall l, defined l -> GetLevelName l <> s) -> GetLevelByString s d = d) /\
  (GetLevelByString s d <> d ->
   defined (GetLevelByString s d) /\ GetLevelName (GetLevelByString s d) = s).
Proof.
  unfold GetLevelByString. destruct (lvlStrs !! s) as [l |] eqn:Hl.
  - apply lvlStrs_inverse in Hl as [Hd Hn]. split; [| done].
    intros H. by destruct (H l Hd).
  - split; [done |]. intros H. by destruct H.
Qed.

Lemma GetLevelByString_exact_witness :
  GetLevelByString "INFO" Warn = Warn /\
  GetLevelByString "info " Warn = Warn /\
  defined (GetLevelByString "debug" Warn) /\
  GetLevelName (GetLevelByString "debug" Warn) = "debug".
Proof.
  split; [| split].
  - apply (proj1 (GetLevelByString_exact "INFO" Warn)).
    intros l H. apply defined_cases in H.
    repeat (destruct H as [-> | H]; [vm_compute; discriminate |]).
    subst. vm_compute. discriminate.
  - apply (proj1 (GetLevelByString_exact "info " Warn)).
    intros l H. apply defined_cases in H.
    repeat (destruct H as [-> | H]; [vm_compute; discriminate |]).
    subst. vm_compute. discriminate.
  - apply (proj2 (GetLevelByString_exact "debug" Warn)).
    vm_compute. discriminate.
Defined.

Section Specs.
Context {E : Env}.

(** X2: [gLS] takes the name of every level from [LvlStr]: for a defined level
    the [LevelSpec] carries the five-byte name of [LvlStr] and a colorizer;
    for any other level [LevelSpecs] gives the zero [LevelSpec], whose
    colorizer is [nil]. *)
Theorem LevelSpecs_consistent (L : Level) :
  (defined L ->
   Name (index_spec L) = index_str LvlStr L /\
   String.length (index_str LvlStr L) = 5%nat /\
   is_Some (Colorizer (index_spec L))) /\
  (~ defined L -> index_spec L = mkLevelSpec EmptyString None).
Proof.
  split.
  - intros H. apply defined_cases in H.
    repeat (destruct H as [-> | H]; [repeat split; eexists; reflexivity |]).
    subst. repeat split; eexists; reflexivity.
  - intros H.
    unfold index_spec, LevelSpecs, defined,
      Off, Fatal, Error, Check, Warn, Info, Debug, Trace in *.
    repeat (rewrite lookup_insert_ne by lia). by rewrite lookup_empty.
Qed.

End Specs.

(** ** [LevelMap.String] *)

Lemma String_store_length (ss ss' : list string) (kv : Z * string) :
  String_store ss kv = Some ss' -> length ss' = length ss.
Proof.
  unfold String_store. case_decide; [| done].
  intros [= <-]. apply length_insert.
Qed.


Lemma insert_swap (ss : list string) (i j : nat) (x y : string) :
  i <> j -> <[i:=x]> (<[j:=y]> ss) = <[j:=y]> (<[i:=x]> ss).
Proof.
  intros Hne. apply list_eq. intros k.
  rewrite !list_lookup_insert, !length_insert.
  repeat case_decide; try done; lia.
Qed.

(** Two rounds of the loop on different keys can be exchanged. *)
Lemma String_store_swap (ss : list string) (a b : Z * string) :
  a.1 <> b.1 ->
  (ss1 ← String_store ss a; String_store ss1 b)
  = (ss1 ← String_store ss b; String_store ss1 a).
Proof.
  intros Hne. unfold String_store.
  destruct (decide (0 <= a.1 < Z.of_nat (length ss))) as [Ha | Ha];
    destruct (decide (0 <= b.1 < Z.of_nat (length ss))) as [Hb | Hb];
    simpl; rewrite ?length_insert;
    repeat (case_decide; try done).
  all: f_equal; apply insert_swap; lia.
Qed.

Lemma String_range_perm (order order' : list (Z * string)) :
  NoDup order.*1 -> order ≡ₚ order' ->
  forall ss, String_range order ss = String_range order' ss.
Proof.
  intros Hnd Hp. induction Hp as [| x l l' Hp IH | x y l | l l' l'' Hp1 IH1 Hp2 IH2];
    intros ss.
  - reflexivity.
  - simpl. destruct (String_store ss x); [| done].
    apply IH. by inversion Hnd.
  - simpl in Hnd. apply NoDup_cons in Hnd as [Hy Hnd].
    assert (x.1 <> y.1) as Hne by (intros Heq; apply Hy; rewrite Heq; left).
    pose proof (String_store_swap ss x y Hne) as Hs. simpl.
    destruct (String_store ss y) as [s1 |] eqn:E1;
      destruct (String_store ss x) as [s2 |] eqn:E2; simpl in Hs.
    + by rewrite <- Hs.
    + by rewrite <- Hs.
    + by rewrite Hs.
    + done.
  - rewrite IH1 by done. apply IH2. by rewrite <- Hp1.
Qed.

(** X3: The result of [LevelMap.String] does not depend on the order in which
    [range] visits the map: every enumeration of the entries gives the same
    string, or panics when one of them does. *)
Theorem LevelMap_String_any_order (l : gmap Z string) (order : list (Z * string)) :
  range_order l order -> String_in_order order = LevelMap_String l.
Proof.
  unfold range_order, LevelMap_String, String_in_order. intros Hp.
  rewrite (Permutation_length Hp).
  rewrite (String_range_perm order (map_to_list l)); [done | | done].
  rewrite Hp. apply NoDup_fst_map_to_list.
Qed.

Lemma String_range_None (order : list (Z * string)) (ss : list string) :
  String_range order ss = None <->
  exists kv, kv ∈ order /\ ~ (0 <= kv.1 < Z.of_nat (length ss)).
Proof.
  revert ss. induction order as [| kv rest IH]; intros ss; simpl.
  - split; [done |]. intros (kv & Hin & _). by apply elem_of_nil in Hin.
  - destruct (String_store ss kv) as [ss1 |] eqn:H1.
    + rewrite IH, (String_store_length _ _ _ H1).
      unfold String_store in H1. case_decide; [| done].
      split.
      * intros (x & Hin & Hx). exists x. split; [by right | done].
      * intros (x & Hin & Hx). apply elem_of_cons in Hin as [-> | Hin]; [done |].
        by exists x.
    + split; [| done]. intros _. exists kv. split; [by left |].
      unfold String_store in H1. by case_decide.
Qed.

(** X4: [LevelMap.String] panics exactly when the map has a key that is not an
    index of a slice as long as the map: a key below 0 or at least
    [len(l)]. *)
Theorem LevelMap_String_panics (l : gmap Z string) :
  LevelMap_String l = None <->
  exists k, is_Some (l !! k) /\ ~ (0 <= k < Z.of_nat (size l)).
Proof.
  unfold LevelMap_String, String_in_order.
  destruct (String_range _ _) as [ss |] eqn:Hr.
  - split; [done |]. intros (k & [v Hv] & Hk).
    assert (String_range (map_to_list l)
              (replicate (length (map_to_list l)) EmptyString) = None) as Hn.
    { apply String_range_None. exists (k, v). split.
      - by apply elem_of_map_to_list.
      - by rewrite length_replicate, length_map_to_list. }
    congruence.
  - split; [| done]. intros _.
    apply String_range_None in Hr as ([k v] & Hin & Hk).
    exists k. split.
    + exists v. by apply elem_of_map_to_list.
    + by rewrite length_replicate, length_map_to_list in Hk.
Qed.




(** The package's own table printed by [String]. *)
Example LvlStr_String :
  LevelMap_String LvlStr = Some "off fatal error check warn info debug trace".
Proof. vm_compute. reflexivity. Qed.


Lemma LevelMap_String_any_order_witness :
  String_in_order
    [(Trace, "trace"); (Off, "off  "); (Warn, "warn "); (Fatal, "fatal");
     (Debug, "debug"); (Check, "check"); (Info, "info "); (Error, "error")]
  = LevelMap_String LvlStr.
Proof.
  apply (LevelMap_String_any_order LvlStr). unfold range_order.
  apply (bool_decide_unpack _). vm_compute. exact I.
Defined.

(** ** [joinStrings] and [strings.Join] *)

Lemma foldl_Join_prefix (sep p : string) (ts : list string) (t : string) :
  foldl (fun b s => (b +:+ sep) +:+ s) (p +:+ t) ts
  = p +:+ foldl (fun b s => (b +:+ sep) +:+ s) t ts.
Proof.
  revert t. induction ts as [| x ts IH]; intros t; simpl; [done |].
  rewrite <- IH. by rewrite !append_assoc.
Qed.

Lemma Join_cons (sep s t : string) (ts : list string) :
  Join (s :: t :: ts) sep = s +:+ sep +:+ Join (t :: ts) sep.
Proof.
  unfold Join. cbn [foldl]. rewrite foldl_Join_prefix. apply append_assoc.
Qed.

Section Joining.
Context {E : Env}.
Implicit Types (st : State U) (a : list (iface Other)).

Lemma joinFrom_Join sep a (o : string) st :
  a <> [] ->
  joinFrom sep a o st = (ss <- Sprint_each a ;; ret (o +:+ Join ss sep)) st.
Proof.
  revert o st. induction a as [| x rest IH]; intros o st Hne; [done |].
  simpl. unfold bind.
  destruct (Sprint x st) as [s st1 | st1 |]; [| done | done].
  destruct rest as [| y r].
  - reflexivity.
  - rewrite IH by done. simpl. unfold bind, ret.
    destruct (Sprint y st1) as [sy st2 | st2 |]; [| done | done].
    destruct (Sprint_each r st2) as [tl st3 | st3 |]; [| done | done].
    f_equal. rewrite Join_cons. by rewrite !append_assoc.
Qed.

(** X6: [joinStrings] prints every element once, from left to right, and
    returns what [strings.Join] makes of the texts: the separator stands
    between elements only, and no argument gives the empty string. *)
Theorem joinStrings_Join sep a st :
  joinStrings sep a st = (ss <- Sprint_each a ;; ret (Join ss sep)) st.
Proof.
  destruct a as [| x rest]; [reflexivity |].
  unfold joinStrings. by rewrite joinFrom_Join.
Qed.

Lemma Sprint_each_strings (ss : list string) st :
  Sprint_each (IString <$> ss) st = Done ss st.
Proof.
  revert st. induction ss as [| s ss IH]; intros st; [reflexivity |].
  simpl. unfold bind, ret. simpl. by rewrite IH.
Qed.

(** A producer that only returns its text. *)
Lemma logPrint_pure L (p : M U string) (m : string) st :
  (forall s, p s = Done m s) ->
  defined L -> writerMx st = false -> L <= logLevel st ->
  logPrint L p st = Done tt (set_writer (writer st ++ [line_of st L m]) st).
Proof.
  intros Hp Hdef Hmx Hle.
  rewrite (logPrint_passes L p st m (set_writerMx true st)); try done.
  destruct st; simpl in *; subst; reflexivity.
Qed.

(** X7: The line printer given strings only, on a defined level that passes:
    one write, the arguments joined by single spaces as the message, and
    nothing else changed. *)
Theorem Ln_strings L st (ss : list string) :
  defined L -> writerMx st = false -> L <= logLevel st ->
  LevelPrinter.Ln (getOnePrinter L) (IString <$> ss) st
  = Done tt (set_writer (writer st ++ [line_of st L (Join ss " ")]) st).
Proof.
  intros Hdef Hmx Hle. simpl. unfold _ln.
  apply logPrint_pure; try done.
  intros s. rewrite joinStrings_Join. unfold bind.
  by rewrite Sprint_each_strings.
Qed.

End Joining.

(** ** The mutex around the gate *)

Section Mutex.
Context {E : Env}.
Implicit Types (st : State U) (L : Level).

(** X9: A closure that panics under the gate: the panic goes on to the caller,
    [logPrint] itself writes nothing, and the deferred [Unlock] has released
    the mutex, so that later calls are not locked out. *)
Theorem producer_panic_releases_lock L st (closure : M U string) st' :
  defined L -> writerMx st = false -> L <= logLevel st ->
  closure (set_writerMx true st) = Panic st' -> writerMx st' = true ->
  LevelPrinter.C (getOnePrinter L) closure st = Panic (set_writerMx false st').
Proof.
  intros Hdef Hmx Hle Hp Hmx'.
  destruct (defined_Colorizer L Hdef) as [f Hf].
  simpl. unfold _c, logPrint, bind, defer, Lock. rewrite Hmx, Hf.
  remember (set_writerMx true st) as st1 eqn:Hst1.
  assert (logLevel st1 = logLevel st) as Hl by (subst st1; auto).
  unfold getTimeText. unfold bind, gets, ret. rewrite Hl.
  replace (L >? logLevel st) with false by (symmetry; rewrite Z.gtb_ltb; apply Z.ltb_ge; lia).
  cbv beta iota.
  destruct (0 <? String.length (App st1))%nat; cbv beta iota;
    rewrite Hp; unfold Unlock; by rewrite Hmx'.
Qed.

Lemma waits_bind {A B} (m : M U A) (k : A -> M U B) :
  waits_for_lock m -> waits_for_lock (bind m k).
Proof. intros Hm st Hst. unfold bind. by rewrite Hm. Qed.

Lemma Lock_waits : waits_for_lock (U := U) Lock.
Proof. intros st Hst. unfold Lock. by rewrite Hst. Qed.

Lemma logPrint_waits L (p : M U string) : waits_for_lock (logPrint L p).
Proof. apply waits_bind, Lock_waits. Qed.

Lemma invoke_waits L (c : call Other U) :
  submits c -> waits_for_lock (invoke (getOnePrinter L) c).
Proof.
  destruct c as [a | format a | a | closure | e]; simpl; intros Hs.
  - apply logPrint_waits.
  - apply logPrint_waits.
  - destruct a as [| [s | d | o] rest]; [done | ..]; apply logPrint_waits.
  - apply logPrint_waits.
  - destruct e as [d |]; [| done]. do 2 apply waits_bind. apply logPrint_waits.
Qed.

(** A producer that waits for the mutex, run under a gate that passes. *)
Lemma logPrint_blocked L (p : M U string) st :
  defined L -> writerMx st = false -> L <= logLevel st ->
  waits_for_lock p -> logPrint L p st = Blocked.
Proof.
  intros Hdef Hmx Hle Hp.
  destruct (defined_Colorizer L Hdef) as [f Hf].
  unfold logPrint, bind, defer, Lock. rewrite Hmx, Hf.
  remember (set_writerMx true st) as st1 eqn:Hst1.
  assert (logLevel st1 = logLevel st /\ writerMx st1 = true) as [Hl Hm]
    by (subst st1; auto).
  unfold getTimeText. unfold bind, gets, ret. rewrite Hl.
  replace (L >? logLevel st) with false by (symmetry; rewrite Z.gtb_ltb; apply Z.ltb_ge; lia).
  cbv beta iota.
  destruct (0 <? String.length (App st1))%nat; cbv beta iota; by rewrite (Hp st1 Hm).
Qed.

(** X10: The mutex is not reentrant: a closure given to the C printer that
    itself starts by logging through any printer, or by reading or setting
    the threshold, never returns when its own entry passes the gate. *)
Theorem reentrant_closure_deadlocks L L' st (c : call Other U) (l : Level)
    (k : M U string) (k' : Level -> M U string) :
  defined L -> writerMx st = false -> L <= logLevel st -> submits c ->
  LevelPrinter.C (getOnePrinter L) (invoke (getOnePrinter L') c ;;; k) st = Blocked /\
  LevelPrinter.C (getOnePrinter L) (x <- GetLogLevel ;; k' x) st = Blocked /\
  LevelPrinter.C (getOnePrinter L) (SetLogLevel l ;;; k) st = Blocked.
Proof.
  intros Hdef Hmx Hle Hs. simpl. unfold _c.
  repeat split; apply logPrint_blocked; try done; apply waits_bind.
  - by apply invoke_waits.
  - apply waits_bind, Lock_waits.
  - apply waits_bind, Lock_waits.
Qed.

(** X11: Setting the threshold and reading it back, with the mutex free: the
    value read is the value set, only the threshold has changed and the
    mutex is free again. *)
Theorem SetLogLevel_GetLogLevel st (l : Level) :
  writerMx st = false ->
  (SetLogLevel l ;;; GetLogLevel) st = Done l (set_logLevel l st).
Proof.
  intros Hmx.
  unfold SetLogLevel, GetLogLevel, bind, Lock, defer, modify, gets, Unlock.
  rewrite Hmx. simpl. destruct st; simpl in *; subst; reflexivity.
Qed.

Lemma invoke_rejected L st (c : call Other U) :
  writerMx st = false -> logLevel st < L -> c <> CallS [] ->
  invoke (getOnePrinter L) c st = Done tt st.
Proof.
  intros Hmx Hlt Hc.
  destruct c as [a | format a | a | closure | e]; simpl.
  - by apply logPrint_rejects.
  - by apply logPrint_rejects.
  - destruct a as [| [s | d | o] rest]; [done | ..]; by apply logPrint_rejects.
  - by apply logPrint_rejects.
  - destruct e as [d |]; [| done]. unfold _chk, bind.
    by rewrite logPrint_rejects.
Qed.

(** X12: With the threshold set to [Off] the logger is silent: every primitive
    of every bundle of [GetLogger], whatever its arguments (the dump printer
    needs one), returns without writing and without running its producer. *)
Theorem Off_silences_logger st (p : LevelPrinter.t Other U) (c : call Other U) :
  writerMx st = false -> p ∈ Logger_printers GetLogger -> c <> CallS [] ->
  (SetLogLevel Off ;;; invoke p c) st = Done tt (set_logLevel Off st).
Proof.
  intros Hmx Hp Hc. unfold bind at 1.
  rewrite SetLogLevel_free by done.
  unfold Logger_printers, GetLogger in Hp. simpl in Hp.
  rewrite !elem_of_cons, elem_of_nil in Hp.
  destruct Hp as [-> | [-> | [-> | [-> | [-> | [-> | []]]]]]];
    apply invoke_rejected; done.
Qed.


End Mutex.

(** ** The location at the end of the line *)

Lemma pretty_N_go_suffix (x : N) (s : string) :
  exists pre, pretty_N_go x s = pre +:+ s.
Proof.
  revert s. induction (N.lt_wf_0 x) as [x _ IH]. intros s.
  destruct (decide (x = 0)%N) as [-> | Hx].
  - exists EmptyString. apply pretty_N_go_0.
  - rewrite pretty_N_go_step by lia.
    destruct (IH (x `div` 10)%N) with (s := String (pretty_N_char (x `mod` 10)) s)
      as [pre Hpre].
    { apply N.div_lt; lia. }
    exists (pre +:+ String (pretty_N_char (x `mod` 10)) EmptyString).
    rewrite Hpre. by rewrite append_assoc.
Qed.

Lemma pretty_N_char_not_nl (x : N) : pretty_N_char x <> "010"%char.
Proof. unfold pretty_N_char. repeat case_match; discriminate. Qed.

(** A decimal rendering ends in a digit, never in a newline. *)
Lemma pretty_Z_last (z : Z) :
  exists pre c, pretty z = pre +:+ String c EmptyString /\ c <> "010"%char.
Proof.
  assert (forall p, exists pre c,
             pretty (Npos p) = pre +:+ String c EmptyString /\ c <> "010"%char) as HN.
  { intros p. unfold pretty, pretty_N. rewrite decide_False by done.
    rewrite pretty_N_go_step by lia.
    destruct (pretty_N_go_suffix (N.pos p `div` 10)
                (String (pretty_N_char (N.pos p `mod` 10)) EmptyString)) as [pre ->].
    exists pre, (pretty_N_char (N.pos p `mod` 10)).
    split; [done | apply pretty_N_char_not_nl]. }
  destruct z as [| p | p].
  - exists EmptyString, "0"%char. by split.
  - apply HN.
  - destruct (HN p) as (pre & c & Hp & Hc).
    exists ("-" +:+ pre), c. split; [| done].
    change (pretty (Z.neg p)) with ("-" +:+ pretty (N.pos p)).
    rewrite Hp. by rewrite append_assoc.
Qed.

Lemma TrimSuffix_nl_last (x : string) (c : ascii) :
  c <> "010"%char ->
  TrimSuffix (x +:+ String c EmptyString) nl = x +:+ String c EmptyString.
Proof.
  intros Hc. rewrite TrimSuffix_nl_app by done. f_equal.
  unfold TrimSuffix, HasSuffix, nl. simpl.
  apply Ascii.eqb_neq in Hc. by rewrite Hc.
Qed.

Section Location.
Context {E : Env}.

(** X14: [GetLoc] ends in the decimal line number, so the [TrimSuffix] of
    [logPrint] never removes anything: whatever the five fields are, the
    line handed to [Fprintln] is the fields joined by single spaces. *)
Theorem location_never_trimmed (timeText app tag msg : string) (skip : Z) :
  TrimSuffix (formatLine timeText app tag msg (GetLoc skip)) nl
  = formatLine timeText app tag msg (GetLoc skip) /\
  line_tail = " " +:+ GetLoc 3 +:+ nl.
Proof.
  assert (forall x k, TrimSuffix (x +:+ GetLoc k) nl = x +:+ GetLoc k) as H.
  { intros x k. unfold GetLoc. destruct (Caller k) as [file line].
    destruct (pretty_Z_last line) as (pre & c & -> & Hc).
    rewrite <- !append_assoc. by apply TrimSuffix_nl_last. }
  split.
  - unfold formatLine.
    rewrite <- !append_assoc. apply H.
  - unfold line_tail. by rewrite (H " " 3), append_assoc.
Qed.

End Location.

(** ** The test of the package *)

Section TestRun.
Context {E : Env}.


End TestRun.

(** ** The further properties on the sample platform *)

Lemma LevelSpecs_consistent_witness :
  (defined Info /\
   Name (index_spec (E := env) Info) = "info " /\
   is_Some (Colorizer (index_spec (E := env) Info))) /\
  (~ defined (-1) /\ index_spec (E := env) (-1) = mkLevelSpec EmptyString None).
Proof.
  assert (defined Info) as Hd by (unfold defined, Info; lia).
  assert (~ defined (-1)) as Hu by (unfold defined; lia).
  split.
  - destruct (proj1 (LevelSpecs_consistent (E := env) Info) Hd) as (H1 & _ & H3).
    split; [exact Hd |]. split; [exact H1 | exact H3].
  - split; [exact Hu |].
    exact (proj2 (LevelSpecs_consistent (E := env) (-1)) Hu).
Defined.

(** A map with the single key [Info] has length 1: index 5 is out of range. *)
Lemma LevelMap_String_panics_witness :
  LevelMap_String {[Info := "info "]} = None.
Proof.
  apply (proj2 (LevelMap_String_panics {[Info := "info "]})).
  exists Info. split.
  - exists "info ". reflexivity.
  - vm_compute. intros [_ H]. discriminate.
Defined.

Lemma Ln_strings_witness :
  defined Warn /\ writerMx start = false /\ Warn <= logLevel start /\
  LevelPrinter.Ln (getOnePrinter (E := env) Warn)
    (IString <$> ["disk"; "almost"; "full"]) start
  = Done tt
      (set_writer (writer start ++ [line_of (E := env) start Warn "disk almost full"])
         start).
Proof.
  assert (defined Warn) as Hd by (unfold defined, Warn; lia).
  assert (Warn <= logLevel start) as Hle by (vm_compute; discriminate).
  split; [exact Hd |]. split; [reflexivity |]. split; [exact Hle |].
  exact (Ln_strings (E := env) Warn start ["disk"; "almost"; "full"] Hd eq_refl Hle).
Defined.

Lemma logPrint_undefined_witness :
  ~ defined 9 /\ writerMx (set_logLevel 10 start) = false /\
  9 <= logLevel (set_logLevel 10 start) /\
  logPrint (E := env) 9 hello (set_logLevel 10 start)
  = Panic (set_logLevel 10 start).
Proof.
  assert (~ defined 9) as Hu by (unfold defined; lia).
  assert (9 <= logLevel (set_logLevel 10 start)) as Hle by (vm_compute; discriminate).
  split; [exact Hu |]. split; [reflexivity |]. split; [exact Hle |].
  exact (logPrint_undefined (E := env) 9 hello (set_logLevel 10 start) Hu eq_refl Hle).
Defined.

Lemma producer_panic_releases_lock_witness :
  defined Info /\ writerMx start = false /\ Info <= logLevel start /\
  LevelPrinter.C (getOnePrinter (E := env) Info) panic start = Panic start.
Proof.
  assert (defined Info) as Hd by (unfold defined, Info; lia).
  assert (Info <= logLevel start) as Hle by (vm_compute; discriminate).
  split; [exact Hd |]. split; [reflexivity |]. split; [exact Hle |].
  exact (producer_panic_releases_lock (E := env) Info start panic
           (set_writerMx true start) Hd eq_refl Hle eq_refl eq_refl).
Defined.

Lemma reentrant_closure_deadlocks_witness :
  defined Info /\ writerMx start = false /\ Info <= logLevel start /\
  LevelPrinter.C (getOnePrinter (E := env) Info)
    (invoke (getOnePrinter (E := env) Debug) (CallLn [IString "inner"]) ;;; hello)
    start
  = Blocked.
Proof.
  assert (defined Info) as Hd by (unfold defined, Info; lia).
  assert (Info <= logLevel start) as Hle by (vm_compute; discriminate).
  split; [exact Hd |]. split; [reflexivity |]. split; [exact Hle |].
  exact (proj1 (reentrant_closure_deadlocks (E := env) Info Debug start
                  (CallLn [IString "inner"]) Off hello (fun _ => hello)
                  Hd eq_refl Hle I)).
Defined.

Lemma SetLogLevel_GetLogLevel_witness :
  writerMx start = false /\
  (SetLogLevel (E := env) Debug ;;; GetLogLevel) start
  = Done Debug (set_logLevel Debug start).
Proof.
  split; [reflexivity |].
  exact (SetLogLevel_GetLogLevel (E := env) start Debug eq_refl).
Defined.

Lemma Off_silences_logger_witness :
  writerMx start = false /\
  (SetLogLevel (E := env) Off ;;;
   invoke (Logger.F (GetLogger (E := env))) (CallC hello)) start
  = Done tt (set_logLevel Off start).
Proof.
  split; [reflexivity |].
  apply (Off_silences_logger (E := env) start (Logger.F GetLogger) (CallC hello)).
  - reflexivity.
  - unfold Logger_printers. apply list_elem_of_here.
  - discriminate.
Defined.


Lemma chk_result_witness :
  defined Debug /\ writerMx start = false /\
  (exists st', _chk (E := env) Debug (Some "boom") start = Done true st') /\
  (exists st', _chk (E := env) Debug None start = Done false st').
Proof.
  assert (defined Debug) as Hd by (unfold defined, Debug; lia).
  split; [exact Hd |]. split; [reflexivity |]. split.
  - exact (chk_result (E := env) Debug start (Some "boom") Hd eq_refl).
  - exact (chk_result (E := env) Debug start None Hd eq_refl).
Defined.


(** The first and the last line of the test on the sample platform. *)
Example TestGetLogger_lines :
  exists mid,
    written (initial 0 0%nat) (TestGetLogger (E := env) (initial 0 0%nat))
    = ["t0 TESTING [trace] testing log level trace main.go:43" +:+ nl]
      ++ mid
      ++ ["t0 TESTING [info ] CHECK: dummy information check main.go:43" +:+ nl].
Proof. eexists [_; _; _; _; _; _]. vm_compute. reflexivity. Qed.

(** ** Laziness of the other primitives *)

Section Lazy.
Context {E : Env}.

(** X17: Above the threshold the line, dump and check printers do no formatting
    either: [fmt.Sprint] and [spew.Sdump] are not run, nothing is written
    and the state is as it was; the check printer still reports whether the
    error is present. *)
Theorem rejected_primitives_lazy (L : Level) (st : State U)
    (a : list (iface Other)) (first : iface Other) (e : error) :
  writerMx st = false -> logLevel st < L ->
  LevelPrinter.Ln (getOnePrinter L) a st = Done tt st /\
  LevelPrinter.S (getOnePrinter L) (first :: a) st = Done tt st /\
  LevelPrinter.Chk (getOnePrinter L) e st = Done (bool_decide (is_Some e)) st.
Proof.
  intros Hmx Hlt. split; [| split].
  - exact (invoke_rejected L st (CallLn a) Hmx Hlt ltac:(discriminate)).
  - exact (invoke_rejected L st (CallS (first :: a)) Hmx Hlt ltac:(discriminate)).
  - destruct e as [d |]; [| reflexivity].
    simpl. unfold _chk, bind. by rewrite logPrint_rejects.
Qed.

End Lazy.

Lemma rejected_primitives_lazy_witness :
  writerMx start = false /\ logLevel start < Trace /\
  LevelPrinter.Ln (getOnePrinter (E := env) Trace) [IOther 1; IOther 2] start
  = Done tt start /\
  LevelPrinter.S (getOnePrinter (E := env) Trace) [IOther 1; IOther 2] start
  = Done tt start.
Proof.
  split; [reflexivity |]. split; [reflexivity |].
  destruct (rejected_primitives_lazy (E := env) Trace start [IOther 2] (IOther 1) None
              eq_refl eq_refl) as (_ & H2 & _).
  destruct (rejected_primitives_lazy (E := env) Trace start [IOther 1; IOther 2]
              (IOther 1) None eq_refl eq_refl) as (H1 & _ & _).
  split; [exact H1 | exact H2].
Defined.
